(** * A to-do list manager: the views of [todos/views.py] over a table of Todo rows

    The application is a Django project with one entity, [Todo], and five
    operations on it: list, create, update, delete and toggle.  The views are
    embedded as functions from a request and a store to a response and a
    store; the table is a list of rows together with the key sequence of its
    auto-incremented primary key. *)

From Stdlib Require Import ZArith List String Bool Lia Permutation Sorted.
Import ListNotations.
Local Open Scope string_scope.
Local Open Scope Z_scope.

(** ** The entity and its table *)

(** Modelled from the spec: the model class [Todo] of [todos/models.py] is
    imported by the views but is not among the source files.  Section 3
    of the specification gives its fields: an [id] assigned at creation, a
    required [title], an optional free-text [description], an optional
    [due_date] (a point in time, here a number) and the flag [is_resolved]. *)
Record Todo : Type := mkTodo {
  id : Z;
  title : string;
  description : string;
  due_date : option Z;
  is_resolved : bool
}.

(** [todo.is_resolved = v] *)
Definition set_is_resolved (v : bool) (todo : Todo) : Todo :=
  mkTodo (id todo) (title todo) (description todo) (due_date todo) v.

(** Modelled from the spec: the table behind [Todo.objects].  Its primary key
    is "assigned at creation, immutable, never reused": the rows are kept with
    the next value of the key sequence. *)
Record Store : Type := mkStore {
  rows : list Todo;
  next_id : Z
}.

Definition empty_store : Store := mkStore [] 1.

(** What a view can raise. *)
Inductive Raises (A : Type) : Type :=
| Return (a : A)
| Http404.
Arguments Return {A} a.
Arguments Http404 {A}.

(** [get_object_or_404(Todo, pk=pk)].  The key is the primary key of the
    table, so at most one row carries it ([unique_ids] below, kept by every
    view). *)
Definition get_object_or_404 (pk : Z) (db : Store) : Raises Todo :=
  match find (fun r => id r =? pk) (rows db) with
  | Some todo => Return todo
  | None => Http404
  end.

(** [todo.save()] on an instance that was loaded from the table: an UPDATE of
    the row that carries its primary key. *)
Definition save (todo : Todo) (db : Store) : Store :=
  mkStore (map (fun r => if id r =? id todo then todo else r) (rows db))
          (next_id db).

(** Modelled from the spec: saving a fresh instance of the model of
    [todos/models.py], an INSERT.  The key is drawn from the sequence and
    [is_resolved] "defaults to false at creation". *)
Definition insert (t : string) (d : string) (due : option Z) (db : Store)
  : Todo * Store :=
  let todo := mkTodo (next_id db) t d due false in
  (todo, mkStore (rows db ++ [todo]) (next_id db + 1)).

(** [todo.delete()] *)
Definition delete (todo : Todo) (db : Store) : Store :=
  mkStore (filter (fun r => negb (id r =? id todo)) (rows db)) (next_id db).

(** ** Ordering of a queryset *)

(** The columns a queryset of this application is ordered by. *)
Inductive Field : Type := f_is_resolved | f_due_date.

(** The value of a column as the database compares it: a boolean is the
    integer 0 or 1, an absent date is NULL. *)
Definition column (f : Field) (todo : Todo) : option Z :=
  match f with
  | f_is_resolved => Some (Z.b2z (is_resolved todo))
  | f_due_date => due_date todo
  end.

Section TodoApp.

(** Where NULL sorts in ascending order depends on the database backend
    (first on SQLite and MySQL, last on PostgreSQL and Oracle). *)
Variable nulls_first : bool.

(** How the text of a date field is read is the form framework's business:
    [None] when the text is not a date. *)
Variable parse_datetime : string -> option Z.

Definition sql_compare (x y : option Z) : comparison :=
  match x, y with
  | None, None => Eq
  | None, Some _ => if nulls_first then Lt else Gt
  | Some _, None => if nulls_first then Gt else Lt
  | Some a, Some b => Z.compare a b
  end.

(** ORDER BY f1 ASC, f2 ASC, ...: the first column that differs decides. *)
Fixpoint compare_by (fields : list Field) (a b : Todo) : comparison :=
  match fields with
  | [] => Eq
  | f :: fields' =>
      match sql_compare (column f a) (column f b) with
      | Eq => compare_by fields' a b
      | c => c
      end
  end.

Definition leb_by (fields : list Field) (a b : Todo) : bool :=
  match compare_by fields a b with
  | Gt => false
  | _ => true
  end.

Fixpoint insert_sorted (fields : list Field) (x : Todo) (l : list Todo)
  : list Todo :=
  match l with
  | [] => [x]
  | y :: l' =>
      if leb_by fields x y then x :: y :: l'
      else y :: insert_sorted fields x l'
  end.

(** [queryset.order_by] on the given fields: rows that compare equal keep the order
    they have in the table. *)
Definition order_by (fields : list Field) (l : list Todo) : list Todo :=
  fold_right (insert_sorted fields) [] l.


(** ** Requests and responses *)

Inductive Method : Type := GET | POST.

(** The fields of a submitted form, as text; [None] when the field was not
    sent. *)
Record PostData : Type := mkPostData {
  post_title : option string;
  post_description : option string;
  post_due_date : option string
}.

Record HttpRequest : Type := mkRequest {
  method : Method;
  body : PostData
}.

(** Modelled from the spec: [urls.py] is not among the source files; the
    route names are those the views and the tests reverse, the
    arguments those of section 6 of the specification. *)
Inductive Url : Type :=
| todo_list
| todo_create
| todo_update (pk : Z)
| todo_delete (pk : Z)
| todo_toggle (pk : Z).

Inductive Template : Type :=
| todo_list_html
| todo_form_html
| todo_confirm_delete_html.

Definition FormErrors : Type := list (string * string).

Inductive Context : Type :=
| ctx_todos (todos : list Todo)
| ctx_form (instance : option Todo) (data : option PostData)
           (errors : FormErrors)
| ctx_object (object : Todo).

Inductive HttpResponse : Type :=
| TemplateResponse (template_name : Template) (context : Context)
| HttpResponseRedirect (url : Url)
| HttpResponseNotFound
| HttpResponseNotAllowed.

Definition status_code (r : HttpResponse) : Z :=
  match r with
  | TemplateResponse _ _ => 200
  | HttpResponseRedirect _ => 302
  | HttpResponseNotFound => 404
  | HttpResponseNotAllowed => 405
  end.

Definition redirect (url : Url) : HttpResponse := HttpResponseRedirect url.
Definition reverse_lazy (url : Url) : Url := url.

(** ** The form *)

Record CleanedData : Type := mkCleaned {
  cleaned_title : string;
  cleaned_description : string;
  cleaned_due_date : option Z
}.

Definition text_of (field : option string) : string :=
  match field with
  | Some s => s
  | None => EmptyString
  end.

(** Modelled from the spec: the form class [TodoForm] of [todos/forms.py] is
    imported by the views but is not among the source files.  Section 4.2 of
    the specification gives its fields, [title], [description] and
    [due_date], and its validation: "title required and non-empty; due_date,
    if present, must parse as a date". *)
Definition title_errors (data : PostData) : FormErrors :=
  match text_of (post_title data) with
  | EmptyString => [("title", "This field is required.")]
  | _ => []
  end.

(** Modelled from the spec: the validation of [due_date] in [TodoForm],
    "if present, must parse as a date". *)
Definition due_date_errors (data : PostData) : FormErrors :=
  match text_of (post_due_date data) with
  | EmptyString => []
  | s => match parse_datetime s with
         | Some _ => []
         | None => [("due_date", "Enter a valid date/time.")]
         end
  end.

(** [form.errors] *)
Definition form_errors (data : PostData) : FormErrors :=
  (title_errors data ++ due_date_errors data)%list.

(** [form.is_valid()] *)
Definition is_valid (data : PostData) : bool :=
  match form_errors data with
  | [] => true
  | _ :: _ => false
  end.

(** Modelled from the spec: [form.cleaned_data] of [TodoForm], one value for
    each of its three fields; read only when the form is valid. *)
Definition cleaned_data (data : PostData) : CleanedData :=
  mkCleaned (text_of (post_title data))
            (text_of (post_description data))
            (match text_of (post_due_date data) with
             | EmptyString => None
             | s => parse_datetime s
             end).

(** Modelled from the spec: [form.save()] of a [TodoForm] bound to an
    existing instance.  The three fields of the form are written over the
    instance's; its key and [is_resolved], which the form does not carry,
    are kept. *)
Definition construct_instance (c : CleanedData) (instance : Todo) : Todo :=
  mkTodo (id instance) (cleaned_title c) (cleaned_description c)
         (cleaned_due_date c) (is_resolved instance).

(** ** The generic views

    [ListView], [CreateView], [UpdateView] and [DeleteView] of
    [django.views.generic], as far as the application configures them: a
    template, an ordering or a form with its success URL.  A view that loads
    its object answers NotFound before it looks at the method. *)

Definition ListView (template_name : Template) (ordering : list Field)
    (request : HttpRequest) (db : Store) : HttpResponse * Store :=
  match method request with
  | GET =>
      (TemplateResponse template_name
         (ctx_todos (order_by ordering (rows db))), db)
  | POST => (HttpResponseNotAllowed, db)
  end.

Definition CreateView (template_name : Template) (success_url : Url)
    (request : HttpRequest) (db : Store) : HttpResponse * Store :=
  match method request with
  | GET => (TemplateResponse template_name (ctx_form None None []), db)
  | POST =>
      let data := body request in
      if is_valid data then
        let c := cleaned_data data in
        let (_, db') :=
          insert (cleaned_title c) (cleaned_description c)
                 (cleaned_due_date c) db in
        (HttpResponseRedirect success_url, db')
      else
        (TemplateResponse template_name
           (ctx_form None (Some data) (form_errors data)), db)
  end.

Definition UpdateView (template_name : Template) (success_url : Url)
    (request : HttpRequest) (pk : Z) (db : Store) : HttpResponse * Store :=
  match get_object_or_404 pk db with
  | Http404 => (HttpResponseNotFound, db)
  | Return object =>
      match method request with
      | GET =>
          (TemplateResponse template_name
             (ctx_form (Some object) None []), db)
      | POST =>
          let data := body request in
          if is_valid data then
            (HttpResponseRedirect success_url,
             save (construct_instance (cleaned_data data) object) db)
          else
            (TemplateResponse template_name
               (ctx_form (Some object) (Some data) (form_errors data)), db)
      end
  end.

Definition DeleteView (template_name : Template) (success_url : Url)
    (request : HttpRequest) (pk : Z) (db : Store) : HttpResponse * Store :=
  match get_object_or_404 pk db with
  | Http404 => (HttpResponseNotFound, db)
  | Return object =>
      match method request with
      | GET => (TemplateResponse template_name (ctx_object object), db)
      | POST => (HttpResponseRedirect success_url, delete object db)
      end
  end.

(** ** [todos/views.py] *)

(** [ordering = ['is_resolved', 'due_date']] *)
Definition TodoListView : HttpRequest -> Store -> HttpResponse * Store :=
  ListView todo_list_html [f_is_resolved; f_due_date].

(** [form_class = TodoForm], [success_url = reverse_lazy('todo_list')] *)
Definition TodoCreateView : HttpRequest -> Store -> HttpResponse * Store :=
  CreateView todo_form_html (reverse_lazy todo_list).

(** [form_class = TodoForm], [success_url = reverse_lazy('todo_list')] *)
Definition TodoUpdateView
  : HttpRequest -> Z -> Store -> HttpResponse * Store :=
  UpdateView todo_form_html (reverse_lazy todo_list).

(** [success_url = reverse_lazy('todo_list')] *)
Definition TodoDeleteView
  : HttpRequest -> Z -> Store -> HttpResponse * Store :=
  DeleteView todo_confirm_delete_html (reverse_lazy todo_list).

Definition toggle_todo_status (request : HttpRequest) (pk : Z) (db : Store)
  : HttpResponse * Store :=
  match get_object_or_404 pk db with
  | Http404 => (HttpResponseNotFound, db)
  | Return todo =>
      let todo := set_is_resolved (negb (is_resolved todo)) todo in
      let db := save todo db in
      (redirect todo_list, db)
  end.

(** The URL configuration: which view serves which route. *)
Definition resolve (url : Url) (request : HttpRequest) (db : Store)
  : HttpResponse * Store :=
  match url with
  | todo_list => TodoListView request db
  | todo_create => TodoCreateView request db
  | todo_update pk => TodoUpdateView request pk db
  | todo_delete pk => TodoDeleteView request pk db
  | todo_toggle pk => toggle_todo_status request pk db
  end.

(** The store after a sequence of requests, served one after the other. *)
Fixpoint serve (requests : list (Url * HttpRequest)) (db : Store) : Store :=
  match requests with
  | [] => db
  | (url, request) :: rest => serve rest (snd (resolve url request db))
  end.

(** The states of the store the application can be in: it starts empty and
    changes only through the views. *)
Inductive reachable : Store -> Prop :=
| reachable_empty : reachable empty_store
| reachable_step (url : Url) (request : HttpRequest) (db : Store) :
    reachable db -> reachable (snd (resolve url request db)).

(** ** The invariant of the store *)

(** A primary key names one row. *)
Definition unique_ids (db : Store) : Prop := NoDup (map id (rows db)).

Definition titles_nonempty (db : Store) : Prop :=
  Forall (fun t => title t <> EmptyString) (rows db).

(** The key sequence is ahead of every key in the table. *)
Definition ids_below_next (db : Store) : Prop :=
  Forall (fun t => id t < next_id db) (rows db).

Definition store_invariant (db : Store) : Prop :=
  unique_ids db /\ titles_nonempty db /\ ids_below_next db.

(** No row carries the key [pk]. *)
Definition absent (pk : Z) (db : Store) : Prop :=
  forall t, In t (rows db) -> id t <> pk.

(** ** Test data, after [todos/tests.py] *)

Definition digit_of (c : Ascii.ascii) : option Z :=
  let n := Z.of_nat (Ascii.nat_of_ascii c) in
  if (48 <=? n) && (n <=? 57) then Some (n - 48) else None.

Fixpoint number_of (s : string) (acc : Z) : option Z :=
  match s with
  | EmptyString => Some acc
  | String c s' =>
      match digit_of c with
      | Some d => number_of s' (10 * acc + d)
      | None => None
      end
  end.

(** A reader for dates written like ['2023-12-31'], the form the tests
    post; the date is numbered year, month, day. *)
Definition parse_iso_date (s : string) : option Z :=
  match number_of (substring 0 4 s) 0,
        number_of (substring 5 2 s) 0,
        number_of (substring 8 2 s) 0 with
  | Some y, Some m, Some d =>
      if (String.length s =? 10)%nat
         && String.eqb (substring 4 1 s) "-"
         && String.eqb (substring 7 1 s) "-"
         && (1 <=? m) && (m <=? 12) && (1 <=? d) && (d <=? 31)
      then Some (y * 10000 + m * 100 + d)
      else None
  | _, _, _ => None
  end.

Definition post_of (t d due : string) : HttpRequest :=
  mkRequest POST (mkPostData (Some t) (Some d) (Some due)).

Definition get_request : HttpRequest :=
  mkRequest GET (mkPostData None None None).

Definition seed_post : HttpRequest :=
  post_of "Seed Todo" "Seed Description" "2023-11-30".

Definition new_post : HttpRequest :=
  post_of "New Todo" "New Description" "2023-12-31".

Definition updated_post : HttpRequest :=
  post_of "Updated Todo" "Updated Description" "2023-12-31".

Definition empty_title_post : HttpRequest :=
  post_of EmptyString "New Description" "2023-12-31".

Definition seed_todo : Todo :=
  mkTodo 1 "Seed Todo" "Seed Description" (Some 20231130) false.

Definition seed_store : Store := mkStore [seed_todo] 2.

(** A table with a resolved row first, then two open rows, the later date
    before the earlier one, then a row without date. *)
Definition mixed_store : Store :=
  mkStore [ mkTodo 1 "Pay rent" EmptyString (Some 20231201) true;
            mkTodo 2 "Write report" EmptyString (Some 20231215) false;
            mkTodo 3 "Call home" EmptyString (Some 20231205) false;
            mkTodo 5 "Some day" EmptyString None false ] 6.


(** ** The test client and the tests of [todos/tests.py] *)

(** A POST without form data, as in [self.client.post(url, follow=True)]. *)
Definition bare_post : HttpRequest :=
  mkRequest POST (mkPostData None None None).

(** The test client with [follow=True] requests the target of a redirect
    with GET, again and again while the answer is a redirect; a chain of
    more than twenty redirects is an error ([None]). *)
Fixpoint handle_redirects (fuel : nat) (response : HttpResponse) (db : Store)
  : option (HttpResponse * Store) :=
  match response with
  | HttpResponseRedirect url =>
      match fuel with
      | O => None
      | S fuel' =>
          let (response', db') := resolve url get_request db in
          handle_redirects fuel' response' db'
      end
  | _ => Some (response, db)
  end.

(** [self.client.get(url, follow=...)] and [self.client.post(url, data,
    follow=...)]: the method and the data are those of [request]. *)
Definition client (follow : bool) (url : Url) (request : HttpRequest)
    (db : Store) : option (HttpResponse * Store) :=
  let (response, db') := resolve url request db in
  if follow then handle_redirects 20 response db' else Some (response, db').

Definition Template_eqb (a b : Template) : bool :=
  match a, b with
  | todo_list_html, todo_list_html => true
  | todo_form_html, todo_form_html => true
  | todo_confirm_delete_html, todo_confirm_delete_html => true
  | _, _ => false
  end.

(** [assertTemplateUsed(response, name)], for the template of the view. *)
Definition template_used (response : HttpResponse) (name : Template) : bool :=
  match response with
  | TemplateResponse template_name _ => Template_eqb template_name name
  | _ => false
  end.

(** [Todo.objects.count()] *)
Definition count (db : Store) : nat := List.length (rows db).

(** [Todo.objects.filter(title=t).exists()] *)
Definition title_exists (t : string) (db : Store) : bool :=
  existsb (fun r => String.eqb (title r) t) (rows db).

(** [todo.refresh_from_db()]: the row that carries the key of [todo], if
    there still is one. *)
Definition refresh_from_db (todo : Todo) (db : Store) : option Todo :=
  find (fun r => id r =? id todo) (rows db).

(** [setUp]: the seed row is created through the model, not through a view.
    A test starts on an empty table; the key sequence may stand anywhere. *)
Definition setUp (now first_key : Z) : Todo * Store :=
  insert "Seed Todo" "Seed Description" (Some now) (mkStore [] first_key).

(** The tests, each the conjunction of its assertions. *)
Definition test_todo_create_view_get (now first_key : Z) : bool :=
  let (_, db) := setUp now first_key in
  match client false todo_create get_request db with
  | Some (response, _) =>
      (status_code response =? 200)
      && template_used response todo_form_html
  | None => false
  end.

Definition test_todo_create_view_post (now first_key : Z) : bool :=
  let (_, db) := setUp now first_key in
  match client true todo_create new_post db with
  | Some (response, db') =>
      (status_code response =? 200)
      && (count db' =? 2)%nat
      && title_exists "New Todo" db'
  | None => false
  end.

Definition test_todo_update_view_get (now first_key : Z) : bool :=
  let (todo, db) := setUp now first_key in
  match client false (todo_update (id todo)) get_request db with
  | Some (response, _) =>
      (status_code response =? 200)
      && template_used response todo_form_html
  | None => false
  end.

Definition test_todo_update_view_post (now first_key : Z) : bool :=
  let (todo, db) := setUp now first_key in
  match client true (todo_update (id todo)) updated_post db with
  | Some (response, db') =>
      (status_code response =? 200)
      && match refresh_from_db todo db' with
         | Some todo' => String.eqb (title todo') "Updated Todo"
         | None => false
         end
  | None => false
  end.

Definition test_todo_delete_view_get (now first_key : Z) : bool :=
  let (todo, db) := setUp now first_key in
  match client false (todo_delete (id todo)) get_request db with
  | Some (response, _) =>
      (status_code response =? 200)
      && template_used response todo_confirm_delete_html
  | None => false
  end.

Definition test_todo_delete_view_post (now first_key : Z) : bool :=
  let (todo, db) := setUp now first_key in
  match client true (todo_delete (id todo)) bare_post db with
  | Some (response, db') =>
      (status_code response =? 200) && (count db' =? 0)%nat
  | None => false
  end.

Definition test_todo_toggle_view (now first_key : Z) : bool :=
  let (todo, db) := setUp now first_key in
  negb (is_resolved todo)
  && match client true (todo_toggle (id todo)) get_request db with
     | Some (response, db') =>
         (status_code response =? 200)
         && match refresh_from_db todo db' with
            | Some todo' => is_resolved todo'
            | None => false
            end
     | None => false
     end.

(** ** The order of a listing *)

Lemma sql_compare_eq (x y : option Z) : sql_compare x y = Eq -> x = y.
Proof.
  destruct x as [a|], y as [b|]; simpl; destruct nulls_first;
    try discriminate; try reflexivity;
    intros H; apply Z.compare_eq in H; now subst.
Qed.

Lemma sql_compare_antisym (x y : option Z) :
  sql_compare y x = CompOpp (sql_compare x y).
Proof.
  destruct x as [a|], y as [b|]; simpl; destruct nulls_first;
    try reflexivity; apply Z.compare_antisym.
Qed.

Lemma sql_compare_lt_trans (x y z : option Z) :
  sql_compare x y = Lt -> sql_compare y z = Lt -> sql_compare x z = Lt.
Proof.
  destruct x as [a|], y as [b|], z as [c|]; simpl;
    destruct nulls_first; try discriminate; try reflexivity;
    rewrite !Z.compare_lt_iff; lia.
Qed.

Lemma leb_by_total (fields : list Field) (a b : Todo) :
  leb_by fields a b = false -> leb_by fields b a = true.
Proof.
  unfold leb_by. induction fields as [|f fields IH]; simpl.
  - discriminate.
  - rewrite (sql_compare_antisym (column f a) (column f b)).
    destruct (sql_compare (column f a) (column f b)); simpl;
      try discriminate; auto.
Qed.

Lemma leb_by_trans (fields : list Field) (a b c : Todo) :
  leb_by fields a b = true -> leb_by fields b c = true ->
  leb_by fields a c = true.
Proof.
  unfold leb_by. induction fields as [|f fields IH]; simpl.
  - reflexivity.
  - destruct (sql_compare (column f a) (column f b)) eqn:Eab.
    + apply sql_compare_eq in Eab. rewrite Eab. 
      destruct (sql_compare (column f b) (column f c)); auto.
    + destruct (sql_compare (column f b) (column f c)) eqn:Ebc.
      * apply sql_compare_eq in Ebc. rewrite <- Ebc, Eab. reflexivity.
      * rewrite (sql_compare_lt_trans _ _ _ Eab Ebc). reflexivity.
      * discriminate.
    + discriminate.
Qed.

Lemma insert_sorted_perm (fields : list Field) (x : Todo) (l : list Todo) :
  Permutation (x :: l) (insert_sorted fields x l).
Proof.
  induction l as [|y l IH]; simpl.
  - apply Permutation_refl.
  - destruct (leb_by fields x y).
    + apply Permutation_refl.
    + eapply perm_trans; [apply perm_swap | apply perm_skip, IH].
Qed.

Lemma order_by_perm (fields : list Field) (l : list Todo) :
  Permutation l (order_by fields l).
Proof.
  induction l as [|x l IH]; simpl.
  - apply perm_nil.
  - eapply perm_trans; [apply perm_skip, IH | apply insert_sorted_perm].
Qed.

Lemma insert_sorted_sorted (fields : list Field) (x : Todo) (l : list Todo) :
  StronglySorted (fun a b => leb_by fields a b = true) l ->
  StronglySorted (fun a b => leb_by fields a b = true)
                 (insert_sorted fields x l).
Proof.
  induction 1 as [|y l Hs IH Hy]; simpl.
  - constructor; constructor.
  - destruct (leb_by fields x y) eqn:Exy.
    + constructor; [constructor; assumption|].
      constructor; [assumption|].
      eapply Forall_impl; [|exact Hy].
      intros z Hz. exact (leb_by_trans _ _ _ _ Exy Hz).
    + constructor; [exact IH|].
      apply (Permutation_Forall (insert_sorted_perm fields x l)).
      constructor; [apply leb_by_total, Exy | exact Hy].
Qed.

Lemma order_by_sorted (fields : list Field) (l : list Todo) :
  StronglySorted (fun a b => leb_by fields a b = true) (order_by fields l).
Proof.
  induction l as [|x l IH]; simpl.
  - constructor.
  - apply insert_sorted_sorted, IH.
Qed.

Lemma StronglySorted_nth_error (R : Todo -> Todo -> Prop) (l : list Todo) :
  StronglySorted R l ->
  forall (i j : nat) (a b : Todo),
    (i < j)%nat -> nth_error l i = Some a -> nth_error l j = Some b ->
    R a b.
Proof.
  induction 1 as [|x l Hs IH Hx]; intros i j a b Hij Hi Hj.
  - destruct i; discriminate.
  - destruct j as [|j]; [lia|]. simpl in Hj.
    destruct i as [|i]; simpl in Hi.
    + injection Hi as <-. rewrite Forall_forall in Hx.
      apply Hx. eapply nth_error_In, Hj.
    + apply (IH i j); [lia | assumption | assumption].
Qed.

(** The order of [TodoListView], read on two rows. *)
Lemma ordering_leb (a b : Todo) :
  leb_by [f_is_resolved; f_due_date] a b = true ->
  (is_resolved a = true -> is_resolved b = true) /\
  (is_resolved a = is_resolved b ->
   sql_compare (due_date a) (due_date b) <> Gt).
Proof.
  unfold leb_by. simpl.
  destruct (is_resolved a), (is_resolved b); simpl;
    try discriminate; (split; [auto | try discriminate]);
    intros _; destruct (sql_compare (due_date a) (due_date b));
    discriminate.
Qed.

(** C1: the list view answers a GET with every stored row, unresolved rows
    before resolved ones and, among rows of the same status, in ascending
    order of due date; the store is left as it was. *)
Theorem list_view_ordering (request : HttpRequest) (db : Store) :
  method request = GET ->
  let todos := order_by [f_is_resolved; f_due_date] (rows db) in
  TodoListView request db
    = (TemplateResponse todo_list_html (ctx_todos todos), db) /\
  Permutation (rows db) todos /\
  (forall i j a b,
      nth_error todos i = Some a -> nth_error todos j = Some b ->
      is_resolved a = false -> is_resolved b = true -> (i < j)%nat) /\
  (forall a b,
      In a (rows db) -> In b (rows db) ->
      is_resolved a = false -> is_resolved b = true ->
      exists i j, nth_error todos i = Some a /\ nth_error todos j = Some b
                  /\ (i < j)%nat) /\
  (forall i j a b,
      nth_error todos i = Some a -> nth_error todos j = Some b ->
      (i < j)%nat -> is_resolved a = is_resolved b ->
      sql_compare (due_date a) (due_date b) <> Gt /\
      (forall d1 d2, due_date a = Some d1 -> due_date b = Some d2 ->
                     d1 <= d2)).
Proof.
  intros Hm todos.
  assert (Hsorted := order_by_sorted [f_is_resolved; f_due_date] (rows db)).
  assert (Hperm := order_by_perm [f_is_resolved; f_due_date] (rows db)).
  fold todos in Hsorted, Hperm.
  assert (Hbefore : forall i j a b,
      nth_error todos i = Some a -> nth_error todos j = Some b ->
      is_resolved a = false -> is_resolved b = true -> (i < j)%nat).
  { intros i j a b Hi Hj Ha Hb.
    destruct (Nat.lt_trichotomy i j) as [Hlt | [Heq | Hgt]].
    - exact Hlt.
    - subst j. rewrite Hi in Hj. injection Hj as ->. congruence.
    - pose proof (StronglySorted_nth_error _ _ Hsorted j i b a Hgt Hj Hi)
        as Hle.
      apply ordering_leb in Hle. destruct Hle as [Hle _].
      specialize (Hle Hb). congruence. }
  split; [|split; [|split; [|split]]].
  - unfold TodoListView, ListView. rewrite Hm. reflexivity.
  - exact Hperm.
  - exact Hbefore.
  - intros a b Ha Hb Hra Hrb.
    apply (Permutation_in _ Hperm) in Ha, Hb.
    apply In_nth_error in Ha, Hb.
    destruct Ha as [i Hi], Hb as [j Hj].
    exists i, j. repeat split; try assumption.
    exact (Hbefore i j a b Hi Hj Hra Hrb).
  - intros i j a b Hi Hj Hij Hres.
    pose proof (StronglySorted_nth_error _ _ Hsorted i j a b Hij Hi Hj)
      as Hle.
    apply ordering_leb in Hle. destruct Hle as [_ Hle].
    specialize (Hle Hres). split; [exact Hle|].
    intros d1 d2 H1 H2. rewrite H1, H2 in Hle. simpl in Hle.
    apply Z.compare_le_iff. exact Hle.
Qed.

(** ** Looking rows up and writing them back *)

Lemma get_object_Return (pk : Z) (db : Store) (todo : Todo) :
  get_object_or_404 pk db = Return todo ->
  In todo (rows db) /\ id todo = pk.
Proof.
  unfold get_object_or_404.
  destruct (find _ (rows db)) as [t|] eqn:E; [|discriminate].
  intros [= <-]. apply find_some in E. destruct E as [Hin Heq].
  split; [exact Hin | now apply Z.eqb_eq].
Qed.

Lemma get_object_Http404 (pk : Z) (db : Store) :
  get_object_or_404 pk db = Http404 <->
  (forall t, In t (rows db) -> id t <> pk).
Proof.
  unfold get_object_or_404.
  destruct (find _ (rows db)) as [t|] eqn:E; split.
  - discriminate.
  - intros H. apply find_some in E. destruct E as [Hin Heq].
    apply Z.eqb_eq in Heq. now destruct (H t Hin).
  - intros _ t Hin. apply Z.eqb_neq. exact (find_none _ _ E t Hin).
  - reflexivity.
Qed.

Lemma get_object_save_same (todo todo' : Todo) (db : Store) :
  get_object_or_404 (id todo) db = Return todo ->
  id todo' = id todo ->
  get_object_or_404 (id todo) (save todo' db) = Return todo'.
Proof.
  unfold get_object_or_404, save. simpl. intros H Hid. rewrite Hid.
  induction (rows db) as [|r l IH]; simpl in *; [discriminate|].
  destruct (id r =? id todo) eqn:E; simpl.
  - rewrite Hid, Z.eqb_refl. reflexivity.
  - rewrite E. apply IH, H.
Qed.

Lemma get_object_save_other (pk : Z) (todo' : Todo) (db : Store) :
  pk <> id todo' ->
  get_object_or_404 pk (save todo' db) = get_object_or_404 pk db.
Proof.
  unfold get_object_or_404, save. simpl. intros Hne.
  induction (rows db) as [|r l IH]; simpl; [reflexivity|].
  destruct (id r =? id todo') eqn:E; simpl.
  - apply Z.eqb_eq in E.
    assert ((id todo' =? pk) = false) as -> by (apply Z.eqb_neq; congruence).
    assert ((id r =? pk) = false) as -> by (apply Z.eqb_neq; congruence).
    exact IH.
  - destruct (id r =? pk); [reflexivity | exact IH].
Qed.

Lemma save_save (t1 t2 : Todo) (db : Store) :
  id t1 = id t2 -> save t2 (save t1 db) = save t2 db.
Proof.
  intros Hid. unfold save. simpl. f_equal. rewrite map_map.
  apply map_ext. intros r. rewrite Hid.
  destruct (id r =? id t2) eqn:E; [|now rewrite E].
  now rewrite Hid, Z.eqb_refl.
Qed.

Lemma save_loaded (todo : Todo) (db : Store) :
  unique_ids db ->
  get_object_or_404 (id todo) db = Return todo ->
  save todo db = db.
Proof.
  unfold unique_ids, get_object_or_404, save. destruct db as [l n]. simpl.
  intros Hnd H. f_equal.
  induction l as [|r l IH]; simpl in *; [reflexivity|].
  inversion Hnd as [|x xs Hnotin Hnd']; subst.
  destruct (id r =? id todo) eqn:E.
  - injection H as ->. f_equal.
    apply Z.eqb_eq in E.
    clear IH Hnd Hnd'. induction l as [|r' l IH]; simpl; [reflexivity|].
    simpl in Hnotin.
    assert ((id r' =? id todo) = false) as ->.
    { apply Z.eqb_neq. intros Heq. apply Hnotin. now left. }
    f_equal. apply IH. intros Hin. apply Hnotin. now right.
  - f_equal. apply IH; assumption.
Qed.

Lemma save_rows_nth (todo' : Todo) (db : Store) (n : nat) (r : Todo) :
  nth_error (rows db) n = Some r ->
  nth_error (rows (save todo' db)) n
    = Some (if id r =? id todo' then todo' else r).
Proof.
  intros H. unfold save. simpl. rewrite nth_error_map, H. reflexivity.
Qed.

(** ** Toggle *)

(** C2: toggling a stored row once negates its flag, toggling it a second
    time gives the row back as it was; where keys are unique the whole
    store is back as it was. *)
Theorem toggle_involution (request1 request2 : HttpRequest) (pk : Z)
    (db : Store) (todo : Todo) :
  get_object_or_404 pk db = Return todo ->
  let db1 := snd (toggle_todo_status request1 pk db) in
  let db2 := snd (toggle_todo_status request2 pk db1) in
  (exists todo1,
      get_object_or_404 pk db1 = Return todo1 /\
      is_resolved todo1 = negb (is_resolved todo)) /\
  get_object_or_404 pk db2 = Return todo /\
  (unique_ids db -> db2 = db).
Proof.
  intros Hget db1 db2.
  destruct (get_object_Return _ _ _ Hget) as [_ Hid]. subst pk.
  set (todo1 := set_is_resolved (negb (is_resolved todo)) todo).
  assert (H1 : db1 = save todo1 db).
  { unfold db1, toggle_todo_status. rewrite Hget. reflexivity. }
  assert (Hget1 : get_object_or_404 (id todo) db1 = Return todo1).
  { rewrite H1. now apply get_object_save_same. }
  assert (Hback : set_is_resolved (negb (is_resolved todo1)) todo1 = todo).
  { destruct todo as [i t d due r]. unfold todo1, set_is_resolved. simpl.
    now rewrite negb_involutive. }
  assert (H2 : db2 = save todo db).
  { unfold db2, toggle_todo_status. rewrite Hget1. cbn [snd].
    rewrite Hback, H1. now apply save_save. }
  split; [|split].
  - exists todo1. split; [exact Hget1 | reflexivity].
  - rewrite H2. now apply get_object_save_same.
  - intros Huniq. rewrite H2. now apply save_loaded.
Qed.

(** C3: toggle answers NotFound exactly when no row carries the key, and
    then changes nothing; for a stored row it answers at once with a
    redirect to the list, the flag of that row negated and written back,
    its other fields and all other rows as they were. *)
Theorem toggle_effect (request : HttpRequest) (pk : Z) (db : Store) :
  (fst (toggle_todo_status request pk db) = HttpResponseNotFound <->
   (forall t, In t (rows db) -> id t <> pk)) /\
  (fst (toggle_todo_status request pk db) = HttpResponseNotFound ->
   snd (toggle_todo_status request pk db) = db) /\
  (forall todo,
      get_object_or_404 pk db = Return todo ->
      let todo' := mkTodo (id todo) (title todo) (description todo)
                          (due_date todo) (negb (is_resolved todo)) in
      let db' := snd (toggle_todo_status request pk db) in
      fst (toggle_todo_status request pk db) = HttpResponseRedirect todo_list
      /\ status_code (fst (toggle_todo_status request pk db)) = 302
      /\ get_object_or_404 pk db' = Return todo'
      /\ (forall pk', pk' <> pk ->
                      get_object_or_404 pk' db' = get_object_or_404 pk' db)
      /\ (forall n r, nth_error (rows db) n = Some r ->
                      nth_error (rows db') n
                        = Some (if id r =? pk then todo' else r))
      /\ List.length (rows db') = List.length (rows db)
      /\ next_id db' = next_id db).
Proof.
  split; [|split].
  - rewrite <- get_object_Http404. unfold toggle_todo_status.
    destruct (get_object_or_404 pk db); simpl; split;
      try discriminate; reflexivity.
  - unfold toggle_todo_status.
    destruct (get_object_or_404 pk db); simpl; [discriminate | reflexivity].
  - intros todo Hget todo' db'.
    destruct (get_object_Return _ _ _ Hget) as [_ Hid].
    assert (Hdb' : db' = save todo' db).
    { unfold db', toggle_todo_status. rewrite Hget. reflexivity. }
    split; [|split; [|split; [|split; [|split; [|split]]]]].
    + unfold toggle_todo_status. rewrite Hget. reflexivity.
    + unfold toggle_todo_status. rewrite Hget. reflexivity.
    + rewrite Hdb'. subst pk. now apply get_object_save_same.
    + intros pk' Hne. rewrite Hdb'. apply get_object_save_other.
      simpl. congruence.
    + intros n r Hn. rewrite Hdb'. rewrite (save_rows_nth _ _ _ _ Hn).
      simpl. now rewrite Hid.
    + rewrite Hdb'. unfold save. simpl. apply length_map.
    + rewrite Hdb'. reflexivity.
Qed.

(** ** The form *)

Lemma is_valid_true (data : PostData) :
  is_valid data = true ->
  text_of (post_title data) <> EmptyString /\
  (text_of (post_due_date data) = EmptyString /\
   cleaned_due_date (cleaned_data data) = None
   \/ exists d, parse_datetime (text_of (post_due_date data)) = Some d /\
                cleaned_due_date (cleaned_data data) = Some d).
Proof.
  unfold is_valid, form_errors, title_errors, due_date_errors, cleaned_data.
  simpl.
  destruct (text_of (post_title data)) as [|c s]; [discriminate|].
  simpl. intros H. split; [discriminate|].
  destruct (text_of (post_due_date data)) as [|c' s']; [now left|].
  destruct (parse_datetime (String c' s')) as [d|]; [|discriminate].
  right. now exists d.
Qed.

Lemma is_valid_false (data : PostData) :
  is_valid data = false -> form_errors data <> [].
Proof.
  unfold is_valid. destruct (form_errors data); [discriminate|].
  intros _. discriminate.
Qed.

Lemma empty_title_invalid (data : PostData) :
  text_of (post_title data) = EmptyString ->
  is_valid data = false /\
  In ("title", "This field is required.") (form_errors data).
Proof.
  unfold is_valid, form_errors, title_errors. intros ->. simpl.
  split; [reflexivity | now left].
Qed.

(** ** Create *)

(** C4: a valid submission to the create view adds exactly one row, with a
    key drawn from the sequence, the submitted fields and the flag unset,
    and is answered with a redirect to the list. *)
Theorem create_valid (request : HttpRequest) (db : Store) :
  method request = POST ->
  is_valid (body request) = true ->
  exists todo,
    TodoCreateView request db
      = (HttpResponseRedirect todo_list,
         mkStore (rows db ++ [todo]) (next_id db + 1)) /\
    List.length (rows (snd (TodoCreateView request db)))
      = S (List.length (rows db)) /\
    is_resolved todo = false /\
    id todo = next_id db /\
    title todo = text_of (post_title (body request)) /\
    description todo = text_of (post_description (body request)) /\
    due_date todo = cleaned_due_date (cleaned_data (body request)).
Proof.
  intros Hm Hv.
  exists (mkTodo (next_id db) (text_of (post_title (body request)))
                 (text_of (post_description (body request)))
                 (cleaned_due_date (cleaned_data (body request))) false).
  unfold TodoCreateView, CreateView. rewrite Hm, Hv. simpl.
  repeat split. rewrite length_app. simpl. lia.
Qed.

(** C5: a submission the form rejects, such as one with an empty title,
    leaves the store as it was and is answered with the entry form and the
    errors of its fields, of which there is at least one. *)
Theorem create_invalid (request : HttpRequest) (db : Store) :
  method request = POST ->
  (text_of (post_title (body request)) = EmptyString ->
   is_valid (body request) = false /\
   In ("title", "This field is required.") (form_errors (body request))) /\
  (is_valid (body request) = false ->
   TodoCreateView request db
     = (TemplateResponse todo_form_html
          (ctx_form None (Some (body request))
                    (form_errors (body request))), db) /\
   form_errors (body request) <> []).
Proof.
  intros Hm. split.
  - apply empty_title_invalid.
  - intros Hv. split; [|now apply is_valid_false].
    unfold TodoCreateView, CreateView. rewrite Hm, Hv. reflexivity.
Qed.

(** ** Update *)

(** C6: a valid submission to the update view of a stored row writes the
    submitted title, description and due date over the row's, keeps its key
    and its flag, leaves the other rows alone and is answered with a
    redirect to the list. *)
Theorem update_overwrites (request : HttpRequest) (pk : Z) (db : Store)
    (todo : Todo) :
  method request = POST ->
  is_valid (body request) = true ->
  get_object_or_404 pk db = Return todo ->
  let db' := snd (TodoUpdateView request pk db) in
  fst (TodoUpdateView request pk db) = HttpResponseRedirect todo_list /\
  (exists todo',
      get_object_or_404 pk db' = Return todo' /\
      id todo' = pk /\
      title todo' = text_of (post_title (body request)) /\
      description todo' = text_of (post_description (body request)) /\
      due_date todo' = cleaned_due_date (cleaned_data (body request)) /\
      (text_of (post_due_date (body request)) = EmptyString /\ due_date todo' = None
       \/ exists d,
           parse_datetime (text_of (post_due_date (body request))) = Some d
           /\ due_date todo' = Some d) /\
      is_resolved todo' = is_resolved todo) /\
  (forall pk', pk' <> pk ->
               get_object_or_404 pk' db' = get_object_or_404 pk' db) /\
  List.length (rows db') = List.length (rows db) /\
  next_id db' = next_id db.
Proof.
  intros Hm Hv Hget db'.
  destruct (get_object_Return _ _ _ Hget) as [_ Hid].
  set (todo' := construct_instance (cleaned_data (body request)) todo).
  assert (Hresp : TodoUpdateView request pk db
                  = (HttpResponseRedirect todo_list, save todo' db)).
  { unfold TodoUpdateView, UpdateView. rewrite Hget, Hm, Hv. reflexivity. }
  assert (Hdb' : db' = save todo' db) by (unfold db'; now rewrite Hresp).
  split; [now rewrite Hresp|]. split; [|split; [|split]].
  - exists todo'. split.
    + rewrite Hdb'. subst pk. now apply get_object_save_same.
    + repeat split; try assumption.
      exact (proj2 (is_valid_true _ Hv)).
  - intros pk' Hne. rewrite Hdb'. apply get_object_save_other.
    simpl. congruence.
  - rewrite Hdb'. unfold save. simpl. apply length_map.
  - rewrite Hdb'. reflexivity.
Qed.

(** C7: the update view answers NotFound for a key no row carries, whatever
    the method and the submission, and leaves the store as it was. *)
Theorem update_not_found (request : HttpRequest) (pk : Z) (db : Store) :
  (forall t, In t (rows db) -> id t <> pk) ->
  TodoUpdateView request pk db = (HttpResponseNotFound, db).
Proof.
  intros H. apply get_object_Http404 in H.
  unfold TodoUpdateView, UpdateView. now rewrite H.
Qed.

(** ** Delete *)

Lemma get_object_delete (todo : Todo) (db : Store) :
  get_object_or_404 (id todo) (delete todo db) = Http404.
Proof.
  apply get_object_Http404. unfold delete. simpl. intros t Hin.
  apply filter_In in Hin. destruct Hin as [_ Hne].
  apply negb_true_iff in Hne. now apply Z.eqb_neq.
Qed.

(** C10: for a stored row, a GET of the delete view answers with the
    confirmation page of that row and leaves the store as it was, so the
    row is still there; it is the POST that removes the row. *)
Theorem delete_get_confirms (request : HttpRequest) (pk : Z) (db : Store)
    (todo : Todo) :
  get_object_or_404 pk db = Return todo ->
  (method request = GET ->
   TodoDeleteView request pk db
     = (TemplateResponse todo_confirm_delete_html (ctx_object todo), db) /\
   get_object_or_404 pk (snd (TodoDeleteView request pk db))
     = Return todo) /\
  (method request = POST ->
   TodoDeleteView request pk db
     = (HttpResponseRedirect todo_list,
        mkStore (filter (fun r => negb (id r =? pk)) (rows db))
                (next_id db)) /\
   get_object_or_404 pk (snd (TodoDeleteView request pk db)) = Http404).
Proof.
  intros Hget. destruct (get_object_Return _ _ _ Hget) as [_ Hid].
  unfold TodoDeleteView, DeleteView. rewrite Hget.
  split; intros ->; simpl.
  - split; [reflexivity | exact Hget].
  - split.
    + unfold delete. now rewrite Hid.
    + subst pk. apply get_object_delete.
Qed.

(** ** The invariant of the store *)

Lemma save_ids (todo' : Todo) (db : Store) :
  map id (rows (save todo' db)) = map id (rows db).
Proof.
  unfold save. simpl. rewrite map_map. apply map_ext. intros r.
  destruct (id r =? id todo') eqn:E; [|reflexivity].
  apply Z.eqb_eq in E. now symmetry.
Qed.

Lemma save_Forall (P : Todo -> Prop) (todo' : Todo) (db : Store) :
  P todo' -> Forall P (rows db) -> Forall P (rows (save todo' db)).
Proof.
  intros Hnew Hall. unfold save. simpl. apply Forall_map.
  eapply Forall_impl; [|exact Hall]. intros r Hr.
  now destruct (id r =? id todo').
Qed.

Lemma filter_ids_incl (keep : Todo -> bool) (l : list Todo) :
  incl (map id (filter keep l)) (map id l).
Proof.
  intros pk Hin. apply in_map_iff in Hin. destruct Hin as [r [Hr Hin]].
  apply filter_In in Hin. apply in_map_iff. exists r. tauto.
Qed.

Lemma filter_unique (keep : Todo -> bool) (l : list Todo) :
  NoDup (map id l) -> NoDup (map id (filter keep l)).
Proof.
  induction l as [|r l IH]; simpl; [trivial|].
  rewrite NoDup_cons_iff. intros [Hfresh Hrest].
  destruct (keep r); simpl; [|auto].
  apply NoDup_cons; [|auto].
  intros Hin. apply Hfresh. exact (filter_ids_incl keep l _ Hin).
Qed.

Lemma absent_iff (pk : Z) (db : Store) :
  absent pk db <-> ~ In pk (map id (rows db)).
Proof.
  unfold absent. rewrite in_map_iff. split.
  - intros H [t [Hid Hin]]. exact (H t Hin Hid).
  - intros H t Hin Hid. apply H. now exists t.
Qed.

Lemma save_invariant (todo todo' : Todo) (db : Store) :
  In todo (rows db) -> id todo' = id todo -> title todo' <> EmptyString ->
  store_invariant db -> store_invariant (save todo' db).
Proof.
  intros Hin Hid Htitle (Hu & Ht & Hb). repeat split.
  - unfold unique_ids. now rewrite save_ids.
  - now apply save_Forall.
  - unfold ids_below_next. apply save_Forall; [|exact Hb].
    unfold ids_below_next in Hb. rewrite Forall_forall in Hb.
    rewrite Hid. exact (Hb todo Hin).
Qed.

Lemma delete_invariant (todo : Todo) (db : Store) :
  store_invariant db -> store_invariant (delete todo db).
Proof.
  intros (Hu & Ht & Hb). unfold delete. repeat split.
  - now apply filter_unique.
  - apply Forall_forall. intros t Hin. apply filter_In in Hin.
    unfold titles_nonempty in Ht. rewrite Forall_forall in Ht.
    now apply Ht.
  - apply Forall_forall. intros t Hin. apply filter_In in Hin.
    unfold ids_below_next in Hb. rewrite Forall_forall in Hb.
    now apply Hb.
Qed.

Lemma insert_invariant (t d : string) (due : option Z) (db : Store) :
  t <> EmptyString -> store_invariant db -> store_invariant (snd (insert t d due db)).
Proof.
  intros Htitle (Hu & Ht & Hb).
  unfold store_invariant, unique_ids, titles_nonempty, ids_below_next in *.
  unfold insert. simpl.
  rewrite Forall_forall in Hb. repeat split.
  - rewrite map_app. simpl. apply NoDup_app; [exact Hu | | ].
    + constructor; [intros [] | constructor].
    + intros x Hx [<- | []]. apply in_map_iff in Hx.
      destruct Hx as [r [Hr Hin]]. specialize (Hb r Hin). lia.
  - apply Forall_app. split; [exact Ht|]. constructor; [exact Htitle|].
    constructor.
  - apply Forall_app. split.
    + apply Forall_forall. intros r Hin. specialize (Hb r Hin). lia.
    + constructor; [simpl; lia | constructor].
Qed.

(** Open the view that serves a route, down to the generic view behind it. *)
Ltac open_view :=
  unfold TodoListView, TodoCreateView, TodoUpdateView, TodoDeleteView,
    toggle_todo_status, ListView, CreateView, UpdateView, DeleteView.

Lemma resolve_invariant (url : Url) (request : HttpRequest) (db : Store) :
  store_invariant db -> store_invariant (snd (resolve url request db)).
Proof.
  intros Hinv. destruct url as [| |pk|pk|pk]; simpl.
  - open_view. now destruct (method request).
  - open_view.
    destruct (method request); [exact Hinv|].
    destruct (is_valid (body request)) eqn:Hv; [|exact Hinv].
    apply insert_invariant; [|exact Hinv].
    exact (proj1 (is_valid_true _ Hv)).
  - open_view.
    destruct (get_object_or_404 pk db) as [todo|] eqn:Hget; [|exact Hinv].
    destruct (method request); [exact Hinv|].
    destruct (is_valid (body request)) eqn:Hv; [|exact Hinv].
    simpl. apply (save_invariant todo); try reflexivity; try assumption.
    + exact (proj1 (get_object_Return _ _ _ Hget)).
    + exact (proj1 (is_valid_true _ Hv)).
  - open_view.
    destruct (get_object_or_404 pk db) as [todo|]; [|exact Hinv].
    destruct (method request); [exact Hinv|].
    simpl. now apply delete_invariant.
  - open_view.
    destruct (get_object_or_404 pk db) as [todo|] eqn:Hget; [|exact Hinv].
    simpl. destruct (get_object_Return _ _ _ Hget) as [Hin _].
    apply (save_invariant todo); try reflexivity; try assumption.
    simpl. destruct Hinv as (_ & Ht & _). unfold titles_nonempty in Ht.
    rewrite Forall_forall in Ht. now apply Ht.
Qed.

Lemma empty_store_invariant : store_invariant empty_store.
Proof.
  repeat split; unfold unique_ids, titles_nonempty, ids_below_next; simpl;
    constructor.
Qed.

Lemma reachable_invariant (db : Store) :
  reachable db -> store_invariant db.
Proof.
  induction 1 as [|url request db _ IH].
  - apply empty_store_invariant.
  - now apply resolve_invariant.
Qed.

Lemma reachable_ids_below_next (db : Store) :
  reachable db -> ids_below_next db.
Proof.
  intros H. apply reachable_invariant in H. now destruct H as (_ & _ & Hb).
Qed.

Lemma unique_ids_inj (db : Store) (a b : Todo) :
  unique_ids db -> In a (rows db) -> In b (rows db) -> id a = id b -> a = b.
Proof.
  unfold unique_ids. induction (rows db) as [|r l IH]; simpl.
  - intros _ [].
  - intros Hnd Ha Hb Hid. inversion Hnd as [|x xs Hnotin Hnd']; subst.
    destruct Ha as [-> | Ha], Hb as [-> | Hb].
    + reflexivity.
    + destruct Hnotin. rewrite Hid. now apply in_map.
    + destruct Hnotin. rewrite <- Hid. now apply in_map.
    + now apply IH.
Qed.

(** C9: the empty store satisfies the invariant; every view, whatever the
    route, the method and the submission, takes a store that satisfies it to
    one that does; so in every state the application can reach no two rows
    share a key and no row has an empty title. *)
Theorem store_invariant_preserved :
  store_invariant empty_store /\
  (forall url request db,
      store_invariant db ->
      store_invariant (snd (resolve url request db))) /\
  (forall db,
      reachable db ->
      unique_ids db /\ titles_nonempty db /\
      (forall a b, In a (rows db) -> In b (rows db) ->
                   id a = id b -> a = b) /\
      (forall t, In t (rows db) -> title t <> EmptyString)).
Proof.
  split; [apply empty_store_invariant|]. split; [apply resolve_invariant|].
  intros db Hr. apply reachable_invariant in Hr.
  destruct Hr as (Hu & Ht & _). repeat split; try assumption.
  - intros a b. now apply unique_ids_inj.
  - unfold titles_nonempty in Ht. now rewrite Forall_forall in Ht.
Qed.

(** ** Delete is final *)

(** A key that is behind the sequence and carried by no row stays so,
    whatever request is served next. *)
Lemma resolve_keeps_absent (pk : Z) (url : Url) (request : HttpRequest)
    (db : Store) :
  pk < next_id db -> absent pk db ->
  pk < next_id (snd (resolve url request db)) /\
  absent pk (snd (resolve url request db)).
Proof.
  intros Hlt Habs. destruct url as [| |pk'|pk'|pk']; simpl.
  - open_view. now destruct (method request).
  - open_view.
    destruct (method request); [now split|].
    destruct (is_valid (body request)); [|now split].
    simpl. split; [lia|]. intros t Hin. apply in_app_or in Hin.
    destruct Hin as [Hin | [<- | []]]; [now apply Habs | simpl; lia].
  - open_view.
    destruct (get_object_or_404 pk' db) as [todo|]; [|now split].
    destruct (method request); [now split|].
    destruct (is_valid (body request)); [|now split].
    simpl. split; [exact Hlt|].
    apply absent_iff. rewrite save_ids. now apply absent_iff.
  - open_view.
    destruct (get_object_or_404 pk' db) as [todo|]; [|now split].
    destruct (method request); [now split|].
    simpl. split; [exact Hlt|]. intros t Hin.
    apply filter_In in Hin. now apply Habs.
  - open_view.
    destruct (get_object_or_404 pk' db) as [todo|]; [|now split].
    simpl. split; [exact Hlt|].
    apply absent_iff. rewrite save_ids. now apply absent_iff.
Qed.

Lemma serve_keeps_absent (pk : Z) (requests : list (Url * HttpRequest))
    (db : Store) :
  pk < next_id db -> absent pk db ->
  pk < next_id (serve requests db) /\ absent pk (serve requests db).
Proof.
  revert db. induction requests as [|[url request] rest IH]; intros db.
  - now split.
  - intros Hlt Habs. simpl.
    destruct (resolve_keeps_absent pk url request db Hlt Habs).
    now apply IH.
Qed.

(** C8: in a store whose key sequence is ahead of its keys (every reachable
    store is one), after a stored row has been deleted by a POST, and
    whatever requests are served afterwards, no row carries its key: the key
    is on no list page, the update, delete and toggle views answer NotFound
    for it, and the key sequence stays ahead of it, so no row created later
    gets it. *)
Theorem delete_is_terminal (request : HttpRequest) (pk : Z) (db : Store)
    (todo : Todo) (later : list (Url * HttpRequest)) :
  ids_below_next db ->
  method request = POST ->
  get_object_or_404 pk db = Return todo ->
  let db' := serve later (snd (TodoDeleteView request pk db)) in
  fst (TodoDeleteView request pk db) = HttpResponseRedirect todo_list /\
  absent pk db' /\
  (forall req todos,
      fst (TodoListView req db')
        = TemplateResponse todo_list_html (ctx_todos todos) ->
      forall t, In t todos -> id t <> pk) /\
  (forall req, fst (TodoUpdateView req pk db') = HttpResponseNotFound) /\
  (forall req, fst (TodoDeleteView req pk db') = HttpResponseNotFound) /\
  (forall req, fst (toggle_todo_status req pk db') = HttpResponseNotFound) /\
  pk < next_id db' /\
  (forall req t,
      In t (rows (snd (TodoCreateView req db'))) -> id t <> pk).
Proof.
  intros Hb Hm Hget db'.
  destruct (get_object_Return _ _ _ Hget) as [Hin Hid].
  assert (Hdel : TodoDeleteView request pk db
                 = (HttpResponseRedirect todo_list, delete todo db)).
  { unfold TodoDeleteView, DeleteView. now rewrite Hget, Hm. }
  assert (Hlt : pk < next_id (delete todo db)).
  { unfold ids_below_next in Hb. rewrite Forall_forall in Hb.
    simpl. rewrite <- Hid. now apply Hb. }
  assert (Habs : absent pk (delete todo db)).
  { unfold absent. apply get_object_Http404. rewrite <- Hid.
    apply get_object_delete. }
  destruct (serve_keeps_absent pk later _ Hlt Habs) as [Hlt' Habs'].
  unfold db'. rewrite Hdel. cbn [fst snd].
  set (db2 := serve later (delete todo db)) in *.
  assert (H404 : get_object_or_404 pk db2 = Http404)
    by (apply get_object_Http404; exact Habs').
  split; [reflexivity|]. split; [exact Habs'|].
  split; [|split; [|split; [|split; [|split]]]].
  - intros req todos Hresp t Ht. unfold TodoListView, ListView in Hresp.
    destruct (method req); [|discriminate]. simpl in Hresp.
    injection Hresp as <-. apply Habs'.
    eapply Permutation_in; [|exact Ht].
    apply Permutation_sym, order_by_perm.
  - intros req. unfold TodoUpdateView, UpdateView. now rewrite H404.
  - intros req. unfold TodoDeleteView, DeleteView. now rewrite H404.
  - intros req. unfold toggle_todo_status. now rewrite H404.
  - exact Hlt'.
  - intros req t.
    exact (proj2 (resolve_keeps_absent pk todo_create req db2 Hlt' Habs') t).
Qed.

(** ** Further properties of the views *)

Lemma get_object_insert_other (pk : Z) (t d : string) (due : option Z)
    (db : Store) :
  pk <> next_id db ->
  get_object_or_404 pk (snd (insert t d due db)) = get_object_or_404 pk db.
Proof.
  intros Hne. unfold get_object_or_404, insert. simpl.
  induction (rows db) as [|r l IH]; simpl.
  - assert ((next_id db =? pk) = false) as -> by (apply Z.eqb_neq; congruence).
    reflexivity.
  - destruct (id r =? pk); [reflexivity | exact IH].
Qed.

Lemma get_object_insert_old (pk : Z) (t d : string) (due : option Z)
    (db : Store) (todo : Todo) :
  get_object_or_404 pk db = Return todo ->
  get_object_or_404 pk (snd (insert t d due db)) = Return todo.
Proof.
  unfold get_object_or_404, insert. simpl.
  induction (rows db) as [|r l IH]; simpl; [discriminate|].
  destruct (id r =? pk); [trivial | exact IH].
Qed.

Lemma get_object_insert_new (t d : string) (due : option Z) (db : Store) :
  ids_below_next db ->
  get_object_or_404 (next_id db) (snd (insert t d due db))
    = Return (fst (insert t d due db)).
Proof.
  unfold ids_below_next, get_object_or_404, insert. simpl.
  induction 1 as [|r l Hr _ IH]; simpl.
  - now rewrite Z.eqb_refl.
  - assert ((id r =? next_id db) = false) as -> by (apply Z.eqb_neq; lia).
    exact IH.
Qed.

Lemma get_object_delete_other (pk : Z) (todo : Todo) (db : Store) :
  pk <> id todo ->
  get_object_or_404 pk (delete todo db) = get_object_or_404 pk db.
Proof.
  intros Hne. unfold get_object_or_404, delete. simpl.
  induction (rows db) as [|r l IH]; simpl; [reflexivity|].
  destruct (id r =? id todo) eqn:E; simpl.
  - apply Z.eqb_eq in E.
    assert ((id r =? pk) = false) as -> by (apply Z.eqb_neq; congruence).
    exact IH.
  - destruct (id r =? pk); [reflexivity | exact IH].
Qed.

Lemma delete_inserted (t d : string) (due : option Z) (db : Store) :
  ids_below_next db ->
  rows (delete (fst (insert t d due db)) (snd (insert t d due db))) = rows db.
Proof.
  unfold ids_below_next, delete, insert. simpl. intros Hb.
  rewrite filter_app. simpl. rewrite Z.eqb_refl. simpl.
  rewrite app_nil_r. induction Hb as [|r l Hr _ IH]; simpl; [reflexivity|].
  assert ((id r =? next_id db) = false) as -> by (apply Z.eqb_neq; lia).
  simpl. now rewrite IH.
Qed.

Lemma delete_length (todo : Todo) (db : Store) :
  unique_ids db -> In todo (rows db) ->
  S (List.length (rows (delete todo db))) = List.length (rows db).
Proof.
  unfold unique_ids, delete. simpl.
  induction (rows db) as [|r l IH]; simpl; [intros _ []|].
  rewrite NoDup_cons_iff. intros [Hfresh Hrest] Hin.
  destruct (id r =? id todo) eqn:E; simpl.
  - f_equal. apply Z.eqb_eq in E.
    clear IH Hin Hrest. induction l as [|r' l IH]; simpl; [reflexivity|].
    simpl in Hfresh.
    assert ((id r' =? id todo) = false) as ->
        by (apply Z.eqb_neq; intros Heq; apply Hfresh; left; congruence).
    simpl. f_equal. apply IH. tauto.
  - f_equal. apply IH; [exact Hrest|].
    destruct Hin as [-> | Hin]; [|exact Hin].
    rewrite Z.eqb_refl in E. discriminate.
Qed.

Lemma construct_instance_twice (c : CleanedData) (todo : Todo) :
  construct_instance c (construct_instance c todo) = construct_instance c todo.
Proof. reflexivity. Qed.

(** X1: a GET of the list, create, update or delete view never changes the
    store, whatever the key and whatever data ride along; the create view
    answers it with the blank entry form and the update view, for a stored
    row, with the entry form bound to that row. *)
Theorem get_is_safe (request : HttpRequest) (pk : Z) (db : Store) :
  method request = GET ->
  snd (TodoListView request db) = db /\
  TodoCreateView request db
    = (TemplateResponse todo_form_html (ctx_form None None []), db) /\
  snd (TodoUpdateView request pk db) = db /\
  snd (TodoDeleteView request pk db) = db /\
  (forall todo,
      get_object_or_404 pk db = Return todo ->
      TodoUpdateView request pk db
        = (TemplateResponse todo_form_html (ctx_form (Some todo) None []),
           db)).
Proof.
  intros Hm. open_view. rewrite Hm. repeat split.
  - now destruct (get_object_or_404 pk db).
  - now destruct (get_object_or_404 pk db).
  - now intros todo ->.
Qed.


(** X3: the delete view answers NotFound for a key no row carries and leaves
    the store as it was, for GET and for POST. *)
Theorem delete_not_found (request : HttpRequest) (pk : Z) (db : Store) :
  absent pk db ->
  TodoDeleteView request pk db = (HttpResponseNotFound, db).
Proof.
  intros H. apply get_object_Http404 in H. open_view. now rewrite H.
Qed.

(** X4: a POST to the delete view of a stored row removes the rows with that
    key and nothing else: every other key resolves as before, the rows left
    are those of other keys, the key sequence does not move, and where keys
    are unique the table has exactly one row less. *)
Theorem delete_frame (request : HttpRequest) (pk : Z) (db : Store)
    (todo : Todo) :
  method request = POST ->
  get_object_or_404 pk db = Return todo ->
  let db' := snd (TodoDeleteView request pk db) in
  (forall pk', pk' <> pk ->
               get_object_or_404 pk' db' = get_object_or_404 pk' db) /\
  (forall r, In r (rows db') <-> In r (rows db) /\ id r <> pk) /\
  next_id db' = next_id db /\
  (unique_ids db -> S (count db') = count db).
Proof.
  intros Hm Hget db'. destruct (get_object_Return _ _ _ Hget) as [Hin Hid].
  assert (Hdb' : db' = delete todo db).
  { unfold db'. open_view. now rewrite Hget, Hm. }
  rewrite Hdb'. repeat split.
  - intros pk' Hne. apply get_object_delete_other. congruence.
  - unfold delete in H. simpl in H. apply filter_In in H. tauto.
  - unfold delete in H. simpl in H. apply filter_In in H.
    destruct H as [_ H]. apply negb_true_iff, Z.eqb_neq in H. congruence.
  - intros [Hr Hne]. unfold delete. simpl. apply filter_In.
    split; [exact Hr|]. apply negb_true_iff, Z.eqb_neq. congruence.
  - intros Hu. unfold count. now apply delete_length.
Qed.

(** X5: a valid POST to the create view disturbs no stored row: every key
    that resolved resolves to the same row, every key but the one drawn stays
    as it was, and where the key sequence is ahead of the table the new row
    is read back under the key drawn, unresolved and with the submitted
    title; the table has one row more. *)
Theorem create_lookup (request : HttpRequest) (db : Store) :
  method request = POST ->
  is_valid (body request) = true ->
  let db' := snd (TodoCreateView request db) in
  (forall pk todo, get_object_or_404 pk db = Return todo ->
                   get_object_or_404 pk db' = Return todo) /\
  (forall pk, pk <> next_id db ->
              get_object_or_404 pk db' = get_object_or_404 pk db) /\
  count db' = S (count db) /\
  (ids_below_next db ->
   exists todo,
     get_object_or_404 (next_id db) db' = Return todo /\
     id todo = next_id db /\
     title todo = text_of (post_title (body request)) /\
     is_resolved todo = false).
Proof.
  intros Hm Hv db'.
  set (c := cleaned_data (body request)).
  assert (Hdb' : db' = snd (insert (cleaned_title c) (cleaned_description c)
                                   (cleaned_due_date c) db)).
  { unfold db'. open_view. now rewrite Hm, Hv. }
  rewrite Hdb'. repeat split.
  - intros pk todo. apply get_object_insert_old.
  - intros pk. apply get_object_insert_other.
  - unfold count, insert. simpl. rewrite length_app. simpl. lia.
  - intros Hb. eexists. split; [now apply get_object_insert_new|].
    repeat split.
Qed.

(** X6: where the key sequence is ahead of the table, creating a row and then
    deleting it by its key gives back the rows there were, in their order;
    the key drawn is spent. *)
Theorem create_then_delete (request request' : HttpRequest) (db : Store) :
  ids_below_next db ->
  method request = POST ->
  is_valid (body request) = true ->
  method request' = POST ->
  let db1 := snd (TodoCreateView request db) in
  let db2 := snd (TodoDeleteView request' (next_id db) db1) in
  rows db2 = rows db /\ next_id db2 = next_id db + 1.
Proof.
  intros Hb Hm Hv Hm' db1 db2.
  set (c := cleaned_data (body request)).
  assert (Hdb1 : db1 = snd (insert (cleaned_title c) (cleaned_description c)
                                   (cleaned_due_date c) db)).
  { unfold db1. open_view. now rewrite Hm, Hv. }
  assert (Hdb2 : db2 = delete (fst (insert (cleaned_title c)
                                           (cleaned_description c)
                                           (cleaned_due_date c) db)) db1).
  { unfold db2. open_view. rewrite Hdb1.
    rewrite (get_object_insert_new _ _ _ _ Hb), Hm'. reflexivity. }
  rewrite Hdb2, Hdb1. split; [now apply delete_inserted | reflexivity].
Qed.

(** X7: the update view is idempotent: the same request served a second
    time gets the answer it got the first time and leaves the store the
    first serving left, whatever the method, the key and the submission. *)
Theorem update_idempotent (request : HttpRequest) (pk : Z) (db : Store) :
  TodoUpdateView request pk (snd (TodoUpdateView request pk db))
    = TodoUpdateView request pk db.
Proof.
  open_view.
  destruct (get_object_or_404 pk db) as [todo|] eqn:Hget; simpl.
  2:{ now rewrite Hget. }
  destruct (get_object_Return _ _ _ Hget) as [_ Hid]. subst pk.
  destruct (method request) eqn:Hm; simpl.
  { now rewrite Hget. }
  destruct (is_valid (body request)) eqn:Hv; simpl.
  - rewrite (get_object_save_same todo
               (construct_instance (cleaned_data (body request)) todo)
               db Hget eq_refl).
    rewrite construct_instance_twice. f_equal. now apply save_save.
  - now rewrite Hget.
Qed.

(** X8: on a stored row, a valid update and a toggle commute: the row ends up
    with the submitted fields and the flag negated, and the store is the
    same, whichever of the two requests is served first. *)
Theorem update_toggle_commute (request request' : HttpRequest) (pk : Z)
    (db : Store) (todo : Todo) :
  method request = POST ->
  is_valid (body request) = true ->
  get_object_or_404 pk db = Return todo ->
  let updated_first :=
    snd (toggle_todo_status request' pk
           (snd (TodoUpdateView request pk db))) in
  let toggled_first :=
    snd (TodoUpdateView request pk
           (snd (toggle_todo_status request' pk db))) in
  updated_first = toggled_first /\
  get_object_or_404 pk updated_first
    = Return (mkTodo pk (text_of (post_title (body request)))
                     (text_of (post_description (body request)))
                     (cleaned_due_date (cleaned_data (body request)))
                     (negb (is_resolved todo))).
Proof.
  intros Hm Hv Hget updated_first toggled_first.
  destruct (get_object_Return _ _ _ Hget) as [_ Hid]. subst pk.
  set (c := cleaned_data (body request)).
  set (final := mkTodo (id todo) (cleaned_title c) (cleaned_description c)
                       (cleaned_due_date c) (negb (is_resolved todo))).
  assert (H1 : updated_first = save final db).
  { unfold updated_first. open_view. rewrite Hget, Hm, Hv. cbn [snd].
    fold c.
    rewrite (get_object_save_same todo (construct_instance c todo) db Hget
                                  eq_refl).
    cbn [snd]. now apply save_save. }
  assert (H2 : toggled_first = save final db).
  { unfold toggled_first. open_view. rewrite Hget. cbn [snd].
    rewrite (get_object_save_same
               todo (set_is_resolved (negb (is_resolved todo)) todo) db Hget
               eq_refl).
    rewrite Hm, Hv. cbn [snd]. fold c. now apply save_save. }
  split; [congruence|]. rewrite H1.
  now apply (get_object_save_same todo final).
Qed.




(** ** The test client *)

Lemma redirect_target (url target : Url) (request : HttpRequest)
    (db : Store) :
  fst (resolve url request db) = HttpResponseRedirect target ->
  target = todo_list.
Proof.
  destruct url as [| |pk|pk|pk]; simpl; open_view;
    try destruct (get_object_or_404 pk db);
    try destruct (method request);
    try destruct (is_valid (body request)); simpl;
    try discriminate; now intros [= <-].
Qed.

(** X11: every redirect a view answers with leads to the list, so the test
    client with [follow=True] never runs out of redirects: it ends on a
    response that is no redirect, the list page of the store the request
    left when the view redirected and the view's own response otherwise; the
    request that follows changes nothing. *)
Theorem client_follow (url : Url) (request : HttpRequest) (db : Store) :
  let db' := snd (resolve url request db) in
  exists response,
    client true url request db = Some (response, db') /\
    (forall target, response <> HttpResponseRedirect target) /\
    (forall target,
        fst (resolve url request db) = HttpResponseRedirect target ->
        target = todo_list /\
        response = TemplateResponse todo_list_html
                     (ctx_todos (order_by [f_is_resolved; f_due_date]
                                          (rows db')))) /\
    ((forall target,
         fst (resolve url request db) <> HttpResponseRedirect target) ->
     response = fst (resolve url request db)).
Proof.
  intros db'. unfold db', client. clear db'.
  pose proof (redirect_target url) as Htarget.
  specialize (fun t => Htarget t request db).
  destruct (resolve url request db) as [response db1]. simpl in *.
  destruct response as [template context|target| |].
  - eexists. split; [reflexivity|]. repeat split; try discriminate.
  - pose proof (Htarget target eq_refl) as ->. clear Htarget.
    eexists. split; [reflexivity|].
    split; [discriminate|]. split.
    + intros t [= <-]. split; reflexivity.
    + intros H. now destruct (H todo_list).
  - eexists. split; [reflexivity|]. repeat split; try discriminate.
  - eexists. split; [reflexivity|]. repeat split; try discriminate.
Qed.

(** ** Toggle and the list *)

Lemma save_row_of_key (todo' b : Todo) (db : Store) :
  In b (rows (save todo' db)) -> id b = id todo' -> b = todo'.
Proof.
  unfold save. simpl. rewrite in_map_iff. intros [r [Hr _]] Hid.
  destruct (id r =? id todo') eqn:E; [now symmetry|].
  apply Z.eqb_neq in E. congruence.
Qed.

(** X12: a toggle moves the row between the two parts of the list: once a
    row has been resolved, the list page shows every unresolved row before
    it, and once it has been reopened, the list page shows it before every
    resolved row. *)
Theorem toggled_row_moves (request request' : HttpRequest) (pk : Z)
    (db : Store) (todo : Todo) :
  get_object_or_404 pk db = Return todo ->
  method request' = GET ->
  let db' := snd (toggle_todo_status request pk db) in
  let todos := order_by [f_is_resolved; f_due_date] (rows db') in
  TodoListView request' db'
    = (TemplateResponse todo_list_html (ctx_todos todos), db') /\
  (exists j b, nth_error todos j = Some b /\ id b = pk) /\
  (forall i j a b,
      nth_error todos i = Some a -> nth_error todos j = Some b ->
      id b = pk ->
      is_resolved b = negb (is_resolved todo) /\
      (is_resolved todo = false -> is_resolved a = false -> (i < j)%nat) /\
      (is_resolved todo = true -> is_resolved a = true -> (j < i)%nat)).
Proof.
  intros Hget Hm db' todos.
  destruct (get_object_Return _ _ _ Hget) as [_ Hid]. subst pk.
  set (todo' := set_is_resolved (negb (is_resolved todo)) todo).
  assert (Hdb' : db' = save todo' db).
  { unfold db', toggle_todo_status. now rewrite Hget. }
  assert (Hperm : Permutation (rows db') todos) by apply order_by_perm.
  assert (Hsorted := order_by_sorted [f_is_resolved; f_due_date] (rows db')).
  fold todos in Hsorted.
  assert (Hkey : forall j b, nth_error todos j = Some b ->
                             id b = id todo -> b = todo').
  { intros j b Hj Hb. apply (save_row_of_key todo' b db).
    - rewrite <- Hdb'. apply (Permutation_in _ (Permutation_sym Hperm)).
      eapply nth_error_In, Hj.
    - simpl. congruence. }
  split; [|split].
  - unfold TodoListView, ListView. now rewrite Hm.
  - assert (Hin : In todo' todos).
    { apply (Permutation_in _ Hperm).
      assert (Hg : get_object_or_404 (id todo) db' = Return todo')
        by (rewrite Hdb'; now apply get_object_save_same).
      exact (proj1 (get_object_Return _ _ _ Hg)). }
    apply In_nth_error in Hin. destruct Hin as [j Hj].
    exists j, todo'. split; [exact Hj | reflexivity].
  - intros i j a b Hi Hj Hb.
    assert (Hrb : is_resolved b = negb (is_resolved todo))
      by (rewrite (Hkey j b Hj Hb); reflexivity).
    split; [exact Hrb|].
    split; intros Hflag Ha; rewrite Hflag in Hrb; simpl in Hrb.
    + destruct (Nat.lt_trichotomy i j) as [Hlt | [Heq | Hgt]]; [exact Hlt| |].
      * subst j. rewrite Hi in Hj. injection Hj as Hab. congruence.
      * pose proof (StronglySorted_nth_error _ _ Hsorted j i b a Hgt Hj Hi)
          as Hle.
        apply ordering_leb in Hle. destruct Hle as [Hle _].
        specialize (Hle Hrb). congruence.
    + destruct (Nat.lt_trichotomy j i) as [Hlt | [Heq | Hgt]]; [exact Hlt| |].
      * subst j. rewrite Hi in Hj. injection Hj as Hab. congruence.
      * pose proof (StronglySorted_nth_error _ _ Hsorted i j a b Hgt Hi Hj)
          as Hle.
        apply ordering_leb in Hle. destruct Hle as [Hle _].
        specialize (Hle Ha). congruence.
Qed.

(** ** The tests *)

(** Run a test whose clock and first key are not known: evaluate, and settle
    the comparison of a key with itself. *)
Ltac run_test :=
  repeat (progress (cbv -[is_valid Z.eqb Z.add order_by];
                    rewrite ?Z.eqb_refl)).

(** X13: the three tests that GET a page pass, whatever the clock shows when
    the seed row is made and whatever key the row draws. *)
Theorem get_tests_pass (now first_key : Z) :
  test_todo_create_view_get now first_key = true /\
  test_todo_update_view_get now first_key = true /\
  test_todo_delete_view_get now first_key = true.
Proof.
  unfold test_todo_create_view_get, test_todo_update_view_get,
    test_todo_delete_view_get.
  run_test. repeat split.
Qed.

(** X14: where the form reads ['2023-12-31'] as a date, the two tests that
    POST a form pass, whatever the clock shows and whatever key the seed row
    draws: the table has two rows, one titled 'New Todo', after the create
    test, and the seed row is titled 'Updated Todo' after the update test. *)
Theorem post_tests_pass (now first_key : Z) :
  parse_datetime "2023-12-31" <> None ->
  test_todo_create_view_post now first_key = true /\
  test_todo_update_view_post now first_key = true.
Proof.
  intros Hdate.
  assert (Hnew : is_valid (body new_post) = true).
  { unfold is_valid, form_errors, title_errors, due_date_errors. simpl.
    now destruct (parse_datetime "2023-12-31"). }
  assert (Hupdated : is_valid (body updated_post) = true).
  { unfold is_valid, form_errors, title_errors, due_date_errors. simpl.
    now destruct (parse_datetime "2023-12-31"). }
  cbv -[is_valid] in Hnew, Hupdated.
  unfold test_todo_create_view_post, test_todo_update_view_post.
  cbv -[is_valid Z.eqb Z.add order_by]. rewrite Hnew, Hupdated.
  run_test. repeat split.
Qed.

(** X15: the delete test and the toggle test pass, whatever the clock shows
    and whatever key the seed row draws: the table is empty after the POST,
    and the seed row, unresolved when made, is resolved after the GET. *)
Theorem delete_and_toggle_tests_pass (now first_key : Z) :
  test_todo_delete_view_post now first_key = true /\
  test_todo_toggle_view now first_key = true.
Proof.
  unfold test_todo_delete_view_post, test_todo_toggle_view.
  run_test. repeat split.
Qed.

End TodoApp.

(** * The theorems on the data of the tests

    The database sorts NULL first (as SQLite does) and dates are read by
    [parse_iso_date]. *)

(** The listing of [mixed_store]: the open "Write report" is third, the
    resolved "Pay rent" last. *)
Lemma list_view_ordering_witness :
  method get_request = GET /\
  TodoListView true get_request mixed_store
    = (TemplateResponse todo_list_html
         (ctx_todos (order_by true [f_is_resolved; f_due_date]
                              (rows mixed_store))), mixed_store) /\
  Permutation (rows mixed_store)
              (order_by true [f_is_resolved; f_due_date] (rows mixed_store)) /\
  (2 < 3)%nat.
Proof.
  split; [reflexivity|].
  pose proof (list_view_ordering true get_request mixed_store eq_refl) as H.
  cbv zeta in H. destruct H as (H1 & H2 & H3 & _).
  split; [exact H1|]. split; [exact H2|].
  apply (H3 2%nat 3%nat
            (mkTodo 2 "Write report" EmptyString (Some 20231215) false)
            (mkTodo 1 "Pay rent" EmptyString (Some 20231201) true));
    reflexivity.
Defined.

(** The seed scenario: the seed row is created, a toggle resolves it, a second
    toggle gives it back unresolved. *)
Lemma toggle_involution_witness :
  let db := snd (TodoCreateView parse_iso_date seed_post empty_store) in
  let db1 := snd (toggle_todo_status get_request 1 db) in
  let db2 := snd (toggle_todo_status get_request 1 db1) in
  get_object_or_404 1 db = Return seed_todo /\
  (exists todo1,
      get_object_or_404 1 db1 = Return todo1 /\ is_resolved todo1 = true) /\
  get_object_or_404 1 db2 = Return seed_todo /\
  is_resolved seed_todo = false.
Proof.
  intros db db1 db2. split; [reflexivity|].
  pose proof (toggle_involution get_request get_request 1 db seed_todo
                                eq_refl) as H.
  cbv zeta in H. destruct H as (H1 & H2 & _).
  split; [exact H1|]. split; [exact H2 | reflexivity].
Defined.

Lemma toggle_effect_witness :
  fst (toggle_todo_status get_request 999 seed_store) = HttpResponseNotFound /\
  fst (toggle_todo_status get_request 1 seed_store)
    = HttpResponseRedirect todo_list /\
  get_object_or_404 1 (snd (toggle_todo_status get_request 1 seed_store))
    = Return (mkTodo 1 "Seed Todo" "Seed Description" (Some 20231130) true).
Proof.
  split.
  - apply (proj1 (toggle_effect get_request 999 seed_store)).
    intros t [<- | []]. discriminate.
  - pose proof (proj2 (proj2 (toggle_effect get_request 1 seed_store))
                      seed_todo eq_refl) as H.
    cbv zeta in H. destruct H as (H1 & _ & H2 & _). split; [exact H1 | exact H2].
Defined.

Lemma create_valid_witness :
  method new_post = POST /\
  is_valid parse_iso_date (body new_post) = true /\
  exists todo,
    TodoCreateView parse_iso_date new_post seed_store
      = (HttpResponseRedirect todo_list,
         mkStore (rows seed_store ++ [todo]) (next_id seed_store + 1)) /\
    is_resolved todo = false /\
    title todo = "New Todo".
Proof.
  split; [reflexivity|]. split; [reflexivity|].
  destruct (create_valid parse_iso_date new_post seed_store eq_refl eq_refl)
    as [todo (H1 & _ & H3 & _ & H5 & _)].
  exists todo. split; [exact H1|]. split; [exact H3 | exact H5].
Defined.

Lemma create_invalid_witness :
  method empty_title_post = POST /\
  text_of (post_title (body empty_title_post)) = EmptyString /\
  TodoCreateView parse_iso_date empty_title_post seed_store
    = (TemplateResponse todo_form_html
         (ctx_form None (Some (body empty_title_post))
                   (form_errors parse_iso_date (body empty_title_post))),
       seed_store) /\
  form_errors parse_iso_date (body empty_title_post) <> [].
Proof.
  split; [reflexivity|]. split; [reflexivity|].
  destruct (create_invalid parse_iso_date empty_title_post seed_store eq_refl)
    as [Hempty Hinvalid].
  apply Hinvalid. exact (proj1 (Hempty eq_refl)).
Defined.

Lemma update_overwrites_witness :
  method updated_post = POST /\
  is_valid parse_iso_date (body updated_post) = true /\
  get_object_or_404 1 seed_store = Return seed_todo /\
  fst (TodoUpdateView parse_iso_date updated_post 1 seed_store)
    = HttpResponseRedirect todo_list /\
  exists todo',
    get_object_or_404 1
      (snd (TodoUpdateView parse_iso_date updated_post 1 seed_store))
      = Return todo' /\
    title todo' = "Updated Todo" /\
    description todo' = "Updated Description" /\
    due_date todo' = Some 20231231 /\
    is_resolved todo' = false.
Proof.
  split; [reflexivity|]. split; [reflexivity|]. split; [reflexivity|].
  pose proof (update_overwrites parse_iso_date updated_post 1 seed_store
                                seed_todo eq_refl eq_refl eq_refl) as H.
  cbv zeta in H.
  destruct H as (H1 & [todo' (Hg & _ & Ht & Hd & Hdue & _ & Hr)] & _).
  split; [exact H1|]. exists todo'.
  split; [exact Hg|]. split; [exact Ht|]. split; [exact Hd|].
  split; [exact Hdue | exact Hr].
Defined.

Lemma update_not_found_witness :
  (forall t, In t (rows seed_store) -> id t <> 999) /\
  TodoUpdateView parse_iso_date updated_post 999 seed_store
    = (HttpResponseNotFound, seed_store).
Proof.
  assert (H : forall t, In t (rows seed_store) -> id t <> 999).
  { intros t [<- | []]. discriminate. }
  split; [exact H|].
  exact (update_not_found parse_iso_date updated_post 999 seed_store H).
Defined.

(** The seed row is created and deleted; a row is created afterwards and a
    toggle of the deleted key is tried. *)
Lemma delete_is_terminal_witness :
  let db := snd (resolve true parse_iso_date todo_create seed_post
                         empty_store) in
  let db' := serve true parse_iso_date
                   [(todo_create, new_post); (todo_toggle 1, get_request)]
                   (snd (TodoDeleteView seed_post 1 db)) in
  reachable true parse_iso_date db /\
  ids_below_next db /\
  method seed_post = POST /\
  get_object_or_404 1 db = Return seed_todo /\
  absent 1 db' /\
  fst (TodoUpdateView parse_iso_date updated_post 1 db')
    = HttpResponseNotFound /\
  fst (TodoDeleteView seed_post 1 db') = HttpResponseNotFound /\
  fst (toggle_todo_status get_request 1 db') = HttpResponseNotFound /\
  1 < next_id db'.
Proof.
  intros db db'.
  assert (Hreach : reachable true parse_iso_date db)
    by (apply reachable_step, reachable_empty).
  assert (Hbelow : ids_below_next db)
    by exact (reachable_ids_below_next true parse_iso_date db Hreach).
  split; [exact Hreach|]. split; [exact Hbelow|].
  split; [reflexivity|]. split; [reflexivity|].
  pose proof (delete_is_terminal true parse_iso_date seed_post 1 db seed_todo
                [(todo_create, new_post); (todo_toggle 1, get_request)]
                Hbelow eq_refl eq_refl) as H.
  cbv zeta in H. destruct H as (_ & Ha & _ & Hu & Hd & Ht & Hn & _).
  split; [exact Ha|]. split; [apply Hu|]. split; [apply Hd|].
  split; [apply Ht | exact Hn].
Defined.

Lemma store_invariant_preserved_witness :
  store_invariant empty_store /\
  store_invariant
    (snd (resolve true parse_iso_date todo_create seed_post empty_store)) /\
  reachable true parse_iso_date
    (snd (resolve true parse_iso_date todo_create seed_post empty_store)) /\
  titles_nonempty
    (snd (resolve true parse_iso_date todo_create seed_post empty_store)).
Proof.
  destruct (store_invariant_preserved true parse_iso_date)
    as (Hempty & Hstep & Hreach).
  assert (Hr : reachable true parse_iso_date
                 (snd (resolve true parse_iso_date todo_create seed_post
                               empty_store)))
    by (apply reachable_step, reachable_empty).
  split; [exact Hempty|]. split; [apply Hstep, Hempty|].
  split; [exact Hr|]. exact (proj1 (proj2 (Hreach _ Hr))).
Defined.

Lemma delete_get_confirms_witness :
  get_object_or_404 1 seed_store = Return seed_todo /\
  method get_request = GET /\
  TodoDeleteView get_request 1 seed_store
    = (TemplateResponse todo_confirm_delete_html (ctx_object seed_todo),
       seed_store) /\
  method seed_post = POST /\
  snd (TodoDeleteView seed_post 1 seed_store) = mkStore [] 2.
Proof.
  split; [reflexivity|]. split; [reflexivity|].
  split.
  - exact (proj1 (proj1 (delete_get_confirms get_request 1 seed_store
                           seed_todo eq_refl) eq_refl)).
  - split; [reflexivity|].
    pose proof (proj1 (proj2 (delete_get_confirms seed_post 1 seed_store
                                seed_todo eq_refl) eq_refl)) as H.
    now rewrite H.
Defined.

(** * The further properties on the data of the tests *)

Lemma get_is_safe_witness :
  method get_request = GET /\
  snd (TodoListView true get_request seed_store) = seed_store /\
  snd (TodoUpdateView parse_iso_date get_request 1 seed_store) = seed_store /\
  TodoUpdateView parse_iso_date get_request 1 seed_store
    = (TemplateResponse todo_form_html (ctx_form (Some seed_todo) None []),
       seed_store).
Proof.
  split; [reflexivity|].
  destruct (get_is_safe true parse_iso_date get_request 1 seed_store eq_refl)
    as (Hl & _ & Hu & _ & Hform).
  split; [exact Hl|]. split; [exact Hu | exact (Hform seed_todo eq_refl)].
Defined.


Lemma delete_not_found_witness :
  absent 999 seed_store /\
  TodoDeleteView bare_post 999 seed_store = (HttpResponseNotFound, seed_store).
Proof.
  assert (H : absent 999 seed_store).
  { intros t [<- | []]. discriminate. }
  split; [exact H | exact (delete_not_found bare_post 999 seed_store H)].
Defined.

(** "Write report" is deleted from [mixed_store]: three rows are left and
    "Call home" is still found. *)
Lemma delete_frame_witness :
  method bare_post = POST /\
  get_object_or_404 2 mixed_store
    = Return (mkTodo 2 "Write report" EmptyString (Some 20231215) false) /\
  unique_ids mixed_store /\
  S (count (snd (TodoDeleteView bare_post 2 mixed_store))) = 4%nat /\
  get_object_or_404 3 (snd (TodoDeleteView bare_post 2 mixed_store))
    = Return (mkTodo 3 "Call home" EmptyString (Some 20231205) false).
Proof.
  assert (Hu : unique_ids mixed_store).
  { unfold unique_ids. simpl.
    repeat (constructor; [simpl; intuition discriminate|]). constructor. }
  split; [reflexivity|]. split; [reflexivity|]. split; [exact Hu|].
  pose proof (delete_frame bare_post 2 mixed_store _ eq_refl eq_refl) as H.
  cbv zeta in H. destruct H as (Hother & _ & _ & Hcount).
  split; [exact (Hcount Hu)|].
  rewrite (Hother 3); [reflexivity | discriminate].
Defined.

Lemma create_lookup_witness :
  method new_post = POST /\
  is_valid parse_iso_date (body new_post) = true /\
  ids_below_next seed_store /\
  get_object_or_404 1 (snd (TodoCreateView parse_iso_date new_post seed_store))
    = Return seed_todo /\
  exists todo,
    get_object_or_404 2
      (snd (TodoCreateView parse_iso_date new_post seed_store)) = Return todo
    /\ title todo = "New Todo" /\ is_resolved todo = false.
Proof.
  assert (Hb : ids_below_next seed_store).
  { unfold ids_below_next. simpl. constructor; [simpl; lia | constructor]. }
  split; [reflexivity|]. split; [reflexivity|]. split; [exact Hb|].
  pose proof (create_lookup parse_iso_date new_post seed_store eq_refl
                            eq_refl) as H.
  cbv zeta in H. destruct H as (Hold & _ & _ & Hnew).
  split; [exact (Hold 1 seed_todo eq_refl)|].
  destruct (Hnew Hb) as [todo (Hg & _ & Ht & Hr)].
  exists todo. split; [exact Hg|]. split; [exact Ht | exact Hr].
Defined.

Lemma create_then_delete_witness :
  ids_below_next seed_store /\
  method new_post = POST /\
  is_valid parse_iso_date (body new_post) = true /\
  method bare_post = POST /\
  rows (snd (TodoDeleteView bare_post 2
               (snd (TodoCreateView parse_iso_date new_post seed_store))))
    = [seed_todo] /\
  next_id (snd (TodoDeleteView bare_post 2
                  (snd (TodoCreateView parse_iso_date new_post seed_store))))
    = 3.
Proof.
  assert (Hb : ids_below_next seed_store).
  { unfold ids_below_next. simpl. constructor; [simpl; lia | constructor]. }
  split; [exact Hb|]. split; [reflexivity|]. split; [reflexivity|].
  split; [reflexivity|].
  exact (create_then_delete parse_iso_date new_post bare_post seed_store Hb
                            eq_refl eq_refl eq_refl).
Defined.

Lemma update_toggle_commute_witness :
  method updated_post = POST /\
  is_valid parse_iso_date (body updated_post) = true /\
  get_object_or_404 1 seed_store = Return seed_todo /\
  snd (toggle_todo_status get_request 1
         (snd (TodoUpdateView parse_iso_date updated_post 1 seed_store)))
    = snd (TodoUpdateView parse_iso_date updated_post 1
             (snd (toggle_todo_status get_request 1 seed_store))).
Proof.
  split; [reflexivity|]. split; [reflexivity|]. split; [reflexivity|].
  exact (proj1 (update_toggle_commute parse_iso_date updated_post get_request
                  1 seed_store seed_todo eq_refl eq_refl eq_refl)).
Defined.



(** The toggle test's request: the client ends on the list page. *)
Lemma client_follow_witness :
  exists response,
    client true parse_iso_date true (todo_toggle 1) get_request seed_store
      = Some (response,
              snd (resolve true parse_iso_date (todo_toggle 1) get_request
                           seed_store)) /\
    status_code response = 200.
Proof.
  pose proof (client_follow true parse_iso_date (todo_toggle 1) get_request
                            seed_store) as H.
  cbv zeta in H. destruct H as [response (Hc & _ & Hr & _)].
  exists response. split; [exact Hc|].
  destruct (Hr todo_list eq_refl) as [_ ->]. reflexivity.
Defined.

(** "Write report" is resolved in [mixed_store]: the list shows it below the
    open rows. *)
Lemma toggled_row_moves_witness :
  get_object_or_404 2 mixed_store
    = Return (mkTodo 2 "Write report" EmptyString (Some 20231215) false) /\
  method get_request = GET /\
  exists j b,
    nth_error (order_by true [f_is_resolved; f_due_date]
                 (rows (snd (toggle_todo_status get_request 2 mixed_store))))
              j = Some b /\ id b = 2.
Proof.
  split; [reflexivity|]. split; [reflexivity|].
  pose proof (toggled_row_moves true get_request get_request 2 mixed_store _
                                eq_refl eq_refl) as H.
  cbv zeta in H. exact (proj1 (proj2 H)).
Defined.

Lemma post_tests_pass_witness :
  parse_iso_date "2023-12-31" <> None /\
  test_todo_create_view_post true parse_iso_date 20231130 1 = true /\
  test_todo_update_view_post true parse_iso_date 20231130 1 = true.
Proof.
  assert (H : parse_iso_date "2023-12-31" <> None) by discriminate.
  split; [exact H|].
  exact (post_tests_pass true parse_iso_date 20231130 1 H).
Defined.
